(** * Business-plan calculator: the two computation functions of
    [business-calculator.py], embedded over exact rational arithmetic.

    Numbers.  Python's [int] and [float] values are both read as exact
    rationals ([Q]); the general properties are proved in this reading,
    without the rounding of binary floating point.  Equality of numbers is
    [Qeq] (written [==]), so [2], [2.0] and [4/2] are the same number.
    Module [Binary64] repeats the two functions over IEEE 754 doubles, to
    run the example scenario the way the interpreter does.

    Caller.  [main] is covered as far as it computes: the values it puts in
    its metrics, its two tables and its chart series, as a function of the
    eight values read from the sidebar.

    Errors.  The only operations of the two functions that can raise are
    true division ([ZeroDivisionError] on a zero divisor) and subscripting
    a dict ([KeyError] on an absent key); both are modelled in a small
    error monad.

    Dicts.  The metrics dict is only ever read by key, so it is a finite
    map [gmap string Q]; [fixed_costs] is summed in insertion order, so it
    is kept as a list of items. *)

From Stdlib Require Import QArith Qabs Lqa PrimFloat.
From stdpp Require Import gmap strings.

(* Decimal literals such as [0.029] denote the nearest binary64 value. *)
Set Warnings "-inexact-float".

Open Scope Q_scope.

(** ** The fragment of the Python runtime the calculator uses *)

Module Py.

Inductive exn : Type :=
| ZeroDivisionError
| KeyError (k : string).

Inductive result (A : Type) : Type :=
| Ok (a : A)
| Raise (e : exn).
Arguments Ok {A} a.
Arguments Raise {A} e.

Definition bind {A B : Type} (r : result A) (f : A -> result B) : result B :=
  match r with
  | Ok a => f a
  | Raise e => Raise e
  end.

(** [x > y] *)
Definition gt (x y : Q) : bool := negb (Qle_bool x y).

(** [x / y]: true division, raising on a zero divisor. *)
Definition truediv (x y : Q) : result Q :=
  if Qeq_bool y 0 then Raise ZeroDivisionError else Ok (x / y).

(** [max(a, b)]: the first argument unless the second is strictly greater. *)
Definition max (a b : Q) : Q := if gt b a then b else a.

(** [sum(xs)]: left-to-right accumulation starting from [0]. *)
Definition sum (xs : list Q) : Q := fold_left Qplus xs 0.

(** [d.values()] of a dict kept as its list of items. *)
Definition values (d : list (string * Q)) : list Q := map snd d.

(** [d[k]] *)
Definition getitem (d : gmap string Q) (k : string) : result Q :=
  match d !! k with
  | Some v => Ok v
  | None => Raise (KeyError k)
  end.

End Py.

Import Py.

Notation "'let*' x ':=' r 'in' k" := (bind r (fun x => k))
  (at level 10, x name, r at level 200, k at level 200).

(** ** [calculate_monthly_metrics] *)

Definition calculate_monthly_metrics
    (monthly_traffic conversion_rate average_basket
     initial_capital initial_stock
     purchase_price_ratio shipping_cost marketing_budget : Q)
  : result (gmap string Q) :=
  (* Calculs de base *)
  let* cr := truediv conversion_rate 100 in
  let orders := monthly_traffic * cr in
  let revenue := orders * average_basket in
  (* Couts variables *)
  let* ppr := truediv purchase_price_ratio 100 in
  let purchase_cost := revenue * ppr in
  let shipping_total := orders * shipping_cost in
  let shopify_fees := (revenue * 0.029) + (orders * 0.30) in
  (* Couts fixes *)
  let fixed_costs : list (string * Q) :=
    [ ("Shopify"%string, 32);
      ("SEO"%string, 200);
      ("Domain"%string, 1.25);
      ("Marketing"%string, marketing_budget) ] in
  let total_fixed_costs := sum (values fixed_costs) in
  (* Marges *)
  let gross_margin := revenue - purchase_cost - shipping_total - shopify_fees in
  let net_margin := gross_margin - total_fixed_costs in
  (* Ratios *)
  let* gross_margin_rate :=
    (if gt revenue 0
     then let* q := truediv gross_margin revenue in Ok (q * 100)
     else Ok 0) in
  let* marketing_ratio :=
    (if gt revenue 0
     then let* q := truediv marketing_budget revenue in Ok (q * 100)
     else Ok 0) in
  let* break_even :=
    (if gt gross_margin_rate 0
     then let* d := truediv gross_margin_rate 100 in truediv total_fixed_costs d
     else Ok 0) in
  Ok ({[ "revenue"%string := revenue;
         "orders"%string := orders;
         "purchase_cost"%string := purchase_cost;
         "shipping_total"%string := shipping_total;
         "shopify_fees"%string := shopify_fees;
         "fixed_costs"%string := total_fixed_costs;
         "gross_margin"%string := gross_margin;
         "net_margin"%string := net_margin;
         "gross_margin_rate"%string := gross_margin_rate;
         "marketing_ratio"%string := marketing_ratio;
         "break_even"%string := break_even ]} : gmap string Q).

(** ** [calculate_annual_projection] *)

Definition calculate_annual_projection (monthly_metrics : gmap string Q)
  : result (gmap string Q) :=
  let annual : gmap string Q := (fun v => v * 12) <$> monthly_metrics in
  let* nm := getitem annual "net_margin" in
  let annual : gmap string Q := <["taxes"%string := max 0 (nm * 0.20)]> annual in
  let* nm := getitem annual "net_margin" in
  let* tx := getitem annual "taxes" in
  let annual : gmap string Q := <["net_profit"%string := nm - tx]> annual in
  Ok annual.

(** ** The same two functions over binary64 floats

    A second reading of the source, with every number an IEEE 754 binary64
    value as in CPython, used to run the example scenario the way the
    interpreter does.  An [int] argument is converted to the float of the
    same value before it meets a float, so the integer inputs and constants
    appear here as floats. *)

Module Binary64.

Local Open Scope float_scope.

Definition gt (x y : float) : bool := y <? x.

Definition truediv (x y : float) : result float :=
  if y =? 0 then Raise ZeroDivisionError else Ok (x / y).

Definition max (a b : float) : float := if gt b a then b else a.

(** [sum(xs)], adding left to right.  Every partial sum of the scenario
    ([32], [232], [233.25], [533.25]) is exact, so an implementation of [sum]
    that carries a compensation term returns the same float there. *)
Definition sum (xs : list float) : float := fold_left PrimFloat.add xs 0.

Definition values (d : list (string * float)) : list float := map snd d.

Definition getitem (d : gmap string float) (k : string) : result float :=
  match d !! k with
  | Some v => Ok v
  | None => Raise (KeyError k)
  end.

Definition calculate_monthly_metrics
    (monthly_traffic conversion_rate average_basket
     initial_capital initial_stock
     purchase_price_ratio shipping_cost marketing_budget : float)
  : result (gmap string float) :=
  let* cr := truediv conversion_rate 100 in
  let orders := monthly_traffic * cr in
  let revenue := orders * average_basket in
  let* ppr := truediv purchase_price_ratio 100 in
  let purchase_cost := revenue * ppr in
  let shipping_total := orders * shipping_cost in
  let shopify_fees := (revenue * 0.029) + (orders * 0.30) in
  let fixed_costs : list (string * float) :=
    [ ("Shopify"%string, 32);
      ("SEO"%string, 200);
      ("Domain"%string, 1.25);
      ("Marketing"%string, marketing_budget) ] in
  let total_fixed_costs := sum (values fixed_costs) in
  let gross_margin := revenue - purchase_cost - shipping_total - shopify_fees in
  let net_margin := gross_margin - total_fixed_costs in
  let* gross_margin_rate :=
    (if gt revenue 0
     then let* q := truediv gross_margin revenue in Ok (q * 100)
     else Ok 0) in
  let* marketing_ratio :=
    (if gt revenue 0
     then let* q := truediv marketing_budget revenue in Ok (q * 100)
     else Ok 0) in
  let* break_even :=
    (if gt gross_margin_rate 0
     then let* d := truediv gross_margin_rate 100 in truediv total_fixed_costs d
     else Ok 0) in
  Ok ({[ "revenue"%string := revenue;
         "orders"%string := orders;
         "purchase_cost"%string := purchase_cost;
         "shipping_total"%string := shipping_total;
         "shopify_fees"%string := shopify_fees;
         "fixed_costs"%string := total_fixed_costs;
         "gross_margin"%string := gross_margin;
         "net_margin"%string := net_margin;
         "gross_margin_rate"%string := gross_margin_rate;
         "marketing_ratio"%string := marketing_ratio;
         "break_even"%string := break_even ]} : gmap string float).

Definition calculate_annual_projection (monthly_metrics : gmap string float)
  : result (gmap string float) :=
  let annual : gmap string float := (fun v => v * 12) <$> monthly_metrics in
  let* nm := getitem annual "net_margin" in
  let annual : gmap string float :=
    <["taxes"%string := max 0 (nm * 0.20)]> annual in
  let* nm := getitem annual "net_margin" in
  let* tx := getitem annual "taxes" in
  let annual : gmap string float := <["net_profit"%string := nm - tx]> annual in
  Ok annual.

Definition returned (r : result (gmap string float)) (k : string) : option float :=
  match r with
  | Ok d => d !! k
  | Raise _ => None
  end.

(** [within tol r k v]: the call returned a dict whose field [k] differs
    from [v] by less than [tol]. *)
Definition within (tol : float) (r : result (gmap string float)) (k : string)
    (v : float) : bool :=
  match returned r k with
  | Some x => abs (x - v) <? tol
  | None => false
  end.

Definition scenario : result (gmap string float) :=
  calculate_monthly_metrics 1000 2.0 80.0 10000 3000 40.0 6.0 300.0.

Definition scenario_annual : result (gmap string float) :=
  let* monthly := scenario in calculate_annual_projection monthly.

End Binary64.

(** ** Observing a call *)

(** [returned r k]: the value stored under key [k] in the dict a call
    returned; [None] when the call raised or the key is absent. *)
Definition returned (r : result (gmap string Q)) (k : string) : option Q :=
  match r with
  | Ok d => d !! k
  | Raise _ => None
  end.

(** [returns r k v]: the call returned a dict whose field [k] is the number [v]. *)
Definition returns (r : result (gmap string Q)) (k : string) (v : Q) : Prop :=
  exists x, returned r k = Some x /\ x == v.

(** [approx tol x y]: [x] and [y] differ by at most [tol]. *)
Definition approx (tol x y : Q) : Prop := Qabs (x - y) <= tol.

(** [returns_approx r k tol v]: the call returned a dict whose field [k] is
    within [tol] of [v]. *)
Definition returns_approx (r : result (gmap string Q)) (k : string) (tol v : Q)
  : Prop :=
  exists x, returned r k = Some x /\ approx tol x v.

(** Two dicts with the same keys and, under each key, the same number. *)
Definition same_metrics (d1 d2 : gmap string Q) : Prop :=
  forall k, match d1 !! k, d2 !! k with
            | Some x, Some y => x == y
            | None, None => True
            | _, _ => False
            end.

(** Two calls with the same outcome: the same exception, or dicts that are
    the same in every field. *)
Definition same_result (r1 r2 : result (gmap string Q)) : Prop :=
  match r1, r2 with
  | Ok d1, Ok d2 => same_metrics d1 d2
  | Raise e1, Raise e2 => e1 = e2
  | _, _ => False
  end.

(** The eleven keys of the dict built by [calculate_monthly_metrics]. *)
Definition monthly_fields : list string :=
  [ "revenue"; "orders"; "purchase_cost"; "shipping_total"; "shopify_fees";
    "fixed_costs"; "gross_margin"; "net_margin"; "gross_margin_rate";
    "marketing_ratio"; "break_even" ]%string.

(** A dict that has (at least) the eleven monthly fields. *)
Definition MonthlyMetrics (d : gmap string Q) : Prop :=
  Forall (fun k => is_Some (d !! k)) monthly_fields.

(** The example scenario of the specification. *)
Definition scenario : result (gmap string Q) :=
  calculate_monthly_metrics 1000 2.0 80.0 10000 3000 40.0 6.0 300.0.

Definition scenario_annual : result (gmap string Q) :=
  let* monthly := scenario in calculate_annual_projection monthly.

(** The monthly dict of the scenario, written out. *)
Definition scenario_monthly : gmap string Q :=
  {[ "revenue"%string := 1600.0;
     "orders"%string := 20;
     "purchase_cost"%string := 640.0;
     "shipping_total"%string := 120.0;
     "shopify_fees"%string := 52.4;
     "fixed_costs"%string := 533.25;
     "gross_margin"%string := 787.6;
     "net_margin"%string := 254.35;
     "gross_margin_rate"%string := 49.225;
     "marketing_ratio"%string := 18.75;
     "break_even"%string := 2133000 # 1969 ]}.

(** ** [main]: the figures handed to the renderers

    [main] reads the eight inputs from sidebar widgets, calls the two
    functions above and passes numbers to the display ([st.metric], two
    [pd.DataFrame]s and a chart).  The widgets and the renderers are outside
    this development: [main] is read as a function of the eight values the
    widgets return, and its result is the data it hands over, before any
    formatting. *)








(** * Properties *)

(** ** Runtime lemmas *)

Lemma gt_true (x y : Q) : gt x y = true <-> y < x.
Proof.
  unfold gt. rewrite negb_true_iff, <- not_true_iff_false, Qle_bool_iff.
  split; [apply Qnot_le_lt | apply Qlt_not_le].
Qed.

Lemma gt_false (x y : Q) : gt x y = false <-> x <= y.
Proof.
  unfold gt. rewrite negb_false_iff. apply Qle_bool_iff.
Qed.

Lemma gt_compat (x x' y y' : Q) : x == x' -> y == y' -> gt x y = gt x' y'.
Proof.
  intros Hx Hy. destruct (gt x' y') eqn:E.
  - apply gt_true. apply gt_true in E. now rewrite Hx, Hy.
  - apply gt_false. apply gt_false in E. now rewrite Hx, Hy.
Qed.

Lemma truediv_nonzero (x y : Q) : ~ y == 0 -> truediv x y = Ok (x / y).
Proof.
  intros Hy. unfold truediv.
  destruct (Qeq_bool y 0) eqn:E; [|reflexivity].
  apply Qeq_bool_iff in E. contradiction.
Qed.

Lemma truediv_zero (x y : Q) : y == 0 -> truediv x y = Raise ZeroDivisionError.
Proof.
  intros Hy. unfold truediv. apply Qeq_bool_iff in Hy. now rewrite Hy.
Qed.

Lemma truediv_gt0 (x y : Q) : gt y 0 = true -> truediv x y = Ok (x / y).
Proof.
  intros Hy. apply gt_true in Hy. apply truediv_nonzero. lra.
Qed.

Lemma truediv_100 (x : Q) : truediv x 100 = Ok (x / 100).
Proof. reflexivity. Qed.

Lemma gt0_div100 (x : Q) : gt x 0 = true -> gt (x / 100) 0 = true.
Proof.
  rewrite !gt_true. intros Hx.
  apply Qlt_shift_div_l; [reflexivity | lra].
Qed.

(** ** The dict [calculate_monthly_metrics] returns *)

Lemma calculate_monthly_metrics_Ok
    (monthly_traffic conversion_rate average_basket initial_capital
     initial_stock purchase_price_ratio shipping_cost marketing_budget : Q) :
  let orders := monthly_traffic * (conversion_rate / 100) in
  let revenue := orders * average_basket in
  let purchase_cost := revenue * (purchase_price_ratio / 100) in
  let shipping_total := orders * shipping_cost in
  let shopify_fees := revenue * 0.029 + orders * 0.30 in
  let total_fixed_costs := 0 + 32 + 200 + 1.25 + marketing_budget in
  let gross_margin := revenue - purchase_cost - shipping_total - shopify_fees in
  let net_margin := gross_margin - total_fixed_costs in
  let gross_margin_rate :=
    if gt revenue 0 then gross_margin / revenue * 100 else 0 in
  let marketing_ratio :=
    if gt revenue 0 then marketing_budget / revenue * 100 else 0 in
  let break_even :=
    if gt gross_margin_rate 0
    then total_fixed_costs / (gross_margin_rate / 100) else 0 in
  calculate_monthly_metrics monthly_traffic conversion_rate average_basket
    initial_capital initial_stock purchase_price_ratio shipping_cost
    marketing_budget
  = Ok {[ "revenue"%string := revenue;
          "orders"%string := orders;
          "purchase_cost"%string := purchase_cost;
          "shipping_total"%string := shipping_total;
          "shopify_fees"%string := shopify_fees;
          "fixed_costs"%string := total_fixed_costs;
          "gross_margin"%string := gross_margin;
          "net_margin"%string := net_margin;
          "gross_margin_rate"%string := gross_margin_rate;
          "marketing_ratio"%string := marketing_ratio;
          "break_even"%string := break_even ]}.
Proof.
  intros. unfold calculate_monthly_metrics.
  rewrite !truediv_100. cbn [bind]. cbv zeta.
  change (sum (values _)) with total_fixed_costs.
  fold orders. fold revenue. fold purchase_cost. fold shipping_total.
  fold shopify_fees. fold gross_margin.
  destruct (gt revenue 0) eqn:Hrev.
  - rewrite !(truediv_gt0 _ revenue Hrev). cbn [bind].
    subst gross_margin_rate break_even.
    destruct (gt (gross_margin / revenue * 100) 0) eqn:Hrate.
    + rewrite truediv_100. cbn [bind].
      rewrite (truediv_gt0 _ _ (gt0_div100 _ Hrate)). reflexivity.
    + reflexivity.
  - reflexivity.
Qed.

Ltac monthly_dict :=
  match goal with
  | |- context [calculate_monthly_metrics ?a ?b ?c ?d ?e ?f ?g ?h] =>
      let H := fresh in
      pose proof (calculate_monthly_metrics_Ok a b c d e f g h) as H;
      cbv zeta in H; rewrite H; clear H
  end.

(** ** Monthly formulas *)

(** C1: for every input tuple the call returns, and in the returned dict
    [orders = monthly_traffic * (conversion_rate / 100)],
    [revenue = orders * average_basket],
    [purchase_cost = revenue * (purchase_price_ratio / 100)],
    [shipping_total = orders * shipping_cost] and
    [shopify_fees = revenue * 0.029 + orders * 0.30]. *)
Theorem monthly_base_formulas
    (monthly_traffic conversion_rate average_basket initial_capital
     initial_stock purchase_price_ratio shipping_cost marketing_budget : Q) :
  let r := calculate_monthly_metrics monthly_traffic conversion_rate
             average_basket initial_capital initial_stock
             purchase_price_ratio shipping_cost marketing_budget in
  let orders := monthly_traffic * (conversion_rate / 100) in
  let revenue := orders * average_basket in
  returned r "orders" = Some orders /\
  returned r "revenue" = Some revenue /\
  returned r "purchase_cost" = Some (revenue * (purchase_price_ratio / 100)) /\
  returned r "shipping_total" = Some (orders * shipping_cost) /\
  returned r "shopify_fees" = Some (revenue * 0.029 + orders * 0.30).
Proof.
  cbv zeta. monthly_dict. cbn [returned].
  repeat split; reflexivity.
Qed.

(** C2: for every input, the returned dict satisfies
    [gross_margin = revenue - purchase_cost - shipping_total - shopify_fees]
    and [net_margin = gross_margin - fixed_costs]; no precondition. *)
Theorem monthly_margin_equations
    (monthly_traffic conversion_rate average_basket initial_capital
     initial_stock purchase_price_ratio shipping_cost marketing_budget : Q) :
  let r := calculate_monthly_metrics monthly_traffic conversion_rate
             average_basket initial_capital initial_stock
             purchase_price_ratio shipping_cost marketing_budget in
  exists revenue purchase_cost shipping_total shopify_fees
         fixed_costs gross_margin net_margin : Q,
    returned r "revenue" = Some revenue /\
    returned r "purchase_cost" = Some purchase_cost /\
    returned r "shipping_total" = Some shipping_total /\
    returned r "shopify_fees" = Some shopify_fees /\
    returned r "fixed_costs" = Some fixed_costs /\
    returned r "gross_margin" = Some gross_margin /\
    returned r "net_margin" = Some net_margin /\
    gross_margin == revenue - purchase_cost - shipping_total - shopify_fees /\
    net_margin == gross_margin - fixed_costs.
Proof.
  cbv zeta. monthly_dict. cbn [returned].
  do 7 eexists.
  repeat (split; [reflexivity|]).
  split; reflexivity.
Qed.

(** C3: for every input, the returned [fixed_costs] is
    [32 + 200 + 1.25 + marketing_budget]. *)
Theorem monthly_fixed_costs
    (monthly_traffic conversion_rate average_basket initial_capital
     initial_stock purchase_price_ratio shipping_cost marketing_budget : Q) :
  returns
    (calculate_monthly_metrics monthly_traffic conversion_rate
       average_basket initial_capital initial_stock
       purchase_price_ratio shipping_cost marketing_budget)
    "fixed_costs" (32 + 200 + 1.25 + marketing_budget).
Proof.
  unfold returns. monthly_dict. cbn [returned].
  eexists. split; [reflexivity|]. lra.
Qed.


(** ** The dict [calculate_annual_projection] returns *)

Lemma calculate_annual_projection_Ok (monthly_metrics : gmap string Q) (nm : Q) :
  monthly_metrics !! "net_margin"%string = Some nm ->
  calculate_annual_projection monthly_metrics
  = Ok (<["net_profit"%string := nm * 12 - max 0 (nm * 12 * 0.20)]>
          (<["taxes"%string := max 0 (nm * 12 * 0.20)]>
             ((fun v => v * 12) <$> monthly_metrics))).
Proof.
  intros Hnm. unfold calculate_annual_projection, getitem.
  rewrite lookup_fmap, Hnm. cbn [fmap option_fmap option_map bind].
  rewrite lookup_insert_ne by discriminate.
  rewrite lookup_fmap, Hnm. cbn [fmap option_fmap option_map bind].
  rewrite lookup_insert_eq. reflexivity.
Qed.


Lemma annual_lookup_other (monthly_metrics : gmap string Q) (x y : Q) (k : string) :
  k <> "taxes"%string -> k <> "net_profit"%string ->
  (<["net_profit"%string := x]>
     (<["taxes"%string := y]> ((fun v => v * 12) <$> monthly_metrics))) !! k
  = (fun v => v * 12) <$> monthly_metrics !! k.
Proof.
  intros Ht Hp.
  rewrite lookup_insert_ne by congruence.
  rewrite lookup_insert_ne by congruence.
  apply lookup_fmap.
Qed.

Lemma max_0_cases (y : Q) :
  (y <= 0 /\ max 0 y = 0) \/ (0 < y /\ max 0 y = y).
Proof.
  unfold max. destruct (gt y 0) eqn:E.
  - right. split; [now apply gt_true | reflexivity].
  - left. split; [now apply gt_false | reflexivity].
Qed.

Lemma monthly_fields_not_annual (k : string) :
  k ∈ monthly_fields -> k <> "taxes"%string /\ k <> "net_profit"%string.
Proof.
  unfold monthly_fields. intros Hk.
  repeat (apply elem_of_cons in Hk as [->|Hk]; [split; discriminate|]).
  now apply elem_of_nil in Hk.
Qed.

(** ** Annual projection *)

(** C5: for every monthly dict, each field of the projection other than
    [taxes] and [net_profit] is 12 times the monthly field of the same name;
    this covers all eleven monthly fields, the ratios included. *)
Theorem annual_scaling (monthly_metrics : gmap string Q) :
  MonthlyMetrics monthly_metrics ->
  exists annual,
    calculate_annual_projection monthly_metrics = Ok annual /\
    (forall k, k <> "taxes"%string -> k <> "net_profit"%string ->
       annual !! k = (fun v => v * 12) <$> monthly_metrics !! k) /\
    Forall (fun k => exists v, monthly_metrics !! k = Some v /\
                               annual !! k = Some (v * 12))
           monthly_fields.
Proof.
  unfold MonthlyMetrics. rewrite Forall_forall. intros Hfields.
  destruct (Hfields "net_margin"%string) as [nm Hnm].
  { unfold monthly_fields. set_solver. }
  eexists. split; [apply (calculate_annual_projection_Ok _ _ Hnm)|].
  split.
  - intros k Ht Hp. now apply annual_lookup_other.
  - apply Forall_forall. intros k Hk. destruct (Hfields k Hk) as [v Hv].
    destruct (monthly_fields_not_annual k Hk) as [Ht Hp].
    exists v. split; [assumption|].
    rewrite annual_lookup_other by assumption. now rewrite Hv.
Qed.

(** C6: in the projection, [taxes] is [0] when the annual net margin
    (12 times the monthly one) is [<= 0] and [0.20] times it otherwise, so it
    is never negative, and [net_profit] is the annual net margin minus
    [taxes]. *)
Theorem annual_taxes (monthly_metrics : gmap string Q) (nm : Q) :
  monthly_metrics !! "net_margin"%string = Some nm ->
  exists annual taxes net_profit,
    calculate_annual_projection monthly_metrics = Ok annual /\
    annual !! "net_margin"%string = Some (nm * 12) /\
    annual !! "taxes"%string = Some taxes /\
    annual !! "net_profit"%string = Some net_profit /\
    (nm * 12 <= 0 -> taxes == 0) /\
    (0 < nm * 12 -> taxes == 0.20 * (nm * 12)) /\
    0 <= taxes /\
    net_profit == nm * 12 - taxes.
Proof.
  intros Hnm. do 3 eexists.
  split; [apply (calculate_annual_projection_Ok _ _ Hnm)|].
  split.
  { rewrite annual_lookup_other by discriminate. now rewrite Hnm. }
  split.
  { rewrite lookup_insert_ne by discriminate. apply lookup_insert_eq. }
  split; [apply lookup_insert_eq|].
  destruct (max_0_cases (nm * 12 * 0.20)) as [[Hy ->]|[Hy ->]];
    repeat split; intros; lra.
Qed.

(** ** The example scenario *)

Ltac scenario_field :=
  unfold returns, returns_approx, approx;
  match goal with
  | |- exists x, ?o = Some x /\ _ =>
      let v := eval vm_compute in o in
      match v with
      | Some ?q => exists q; split; [vm_compute; reflexivity|]
      end
  end.

(** C7 (as stated): the returned [break_even] of the scenario is
    [2133000/1969 = 1083.291...], which is farther than [0.1] from the
    stated [1083.42]. *)
Lemma scenario_break_even_not_1083_42 :
  returns scenario "break_even" (2133000 # 1969) /\
  ~ returns_approx scenario "break_even" 0.1 1083.42.
Proof.
  split.
  - scenario_field. reflexivity.
  - intros [x [Hx Hclose]]. vm_compute in Hx. injection Hx as <-.
    vm_compute in Hclose. apply Hclose. reflexivity.
Qed.

(** C7 (amended): on the scenario input the monthly call returns
    [orders = 20], [revenue = 1600], [purchase_cost = 640],
    [shipping_total = 120], [shopify_fees = 52.4], [fixed_costs = 533.25],
    [gross_margin = 787.6], [net_margin = 254.35],
    [gross_margin_rate = 49.225], [marketing_ratio = 18.75] and
    [break_even] within [0.005] of [1083.29]; the projection of that result
    has [net_margin = 3052.2], [taxes = 610.44], [net_profit = 2441.76]. *)
Theorem scenario_values :
  returns scenario "orders" 20 /\
  returns scenario "revenue" 1600.0 /\
  returns scenario "purchase_cost" 640.0 /\
  returns scenario "shipping_total" 120.0 /\
  returns scenario "shopify_fees" 52.4 /\
  returns scenario "fixed_costs" 533.25 /\
  returns scenario "gross_margin" 787.6 /\
  returns scenario "net_margin" 254.35 /\
  returns scenario "gross_margin_rate" 49.225 /\
  returns_approx scenario "gross_margin_rate" 0.0005 49.225 /\
  returns scenario "marketing_ratio" 18.75 /\
  returns_approx scenario "break_even" 0.005 1083.29 /\
  returns scenario_annual "net_margin" 3052.2 /\
  returns scenario_annual "taxes" 610.44 /\
  returns scenario_annual "net_profit" 2441.76.
Proof.
  repeat split; scenario_field; vm_compute; try reflexivity; discriminate.
Qed.

(** ** Sign of the currency fields *)




(** ** Determinism and independence *)

Lemma same_metrics_empty : same_metrics ∅ ∅.
Proof.
  intros k. now rewrite !lookup_empty.
Qed.

Lemma same_metrics_insert (d1 d2 : gmap string Q) (k : string) (x y : Q) :
  x == y -> same_metrics d1 d2 ->
  same_metrics (<[k := x]> d1) (<[k := y]> d2).
Proof.
  intros Hxy Hd j. destruct (decide (k = j)) as [->|Hne].
  - now rewrite !lookup_insert_eq.
  - rewrite !lookup_insert_ne by assumption. apply Hd.
Qed.

Lemma guarded_ratio_compat (x x' y y' : Q) :
  x == x' -> y == y' ->
  (if gt y 0 then x / y * 100 else 0) == (if gt y' 0 then x' / y' * 100 else 0).
Proof.
  intros Hx Hy. rewrite (gt_compat y y' 0 0 Hy (Qeq_refl 0)).
  destruct (gt y' 0); [|reflexivity].
  now rewrite Hx, Hy.
Qed.

Lemma guarded_quotient_compat (t t' g g' : Q) :
  t == t' -> g == g' ->
  (if gt g 0 then t / (g / 100) else 0) == (if gt g' 0 then t' / (g' / 100) else 0).
Proof.
  intros Ht Hg. rewrite (gt_compat g g' 0 0 Hg (Qeq_refl 0)).
  destruct (gt g' 0); [|reflexivity].
  now rewrite Ht, Hg.
Qed.

Lemma monthly_same_numbers
    (monthly_traffic conversion_rate average_basket initial_capital
     initial_stock purchase_price_ratio shipping_cost marketing_budget
     monthly_traffic' conversion_rate' average_basket' initial_capital'
     initial_stock' purchase_price_ratio' shipping_cost' marketing_budget' : Q) :
  monthly_traffic == monthly_traffic' -> conversion_rate == conversion_rate' ->
  average_basket == average_basket' ->
  purchase_price_ratio == purchase_price_ratio' ->
  shipping_cost == shipping_cost' -> marketing_budget == marketing_budget' ->
  same_result
    (calculate_monthly_metrics monthly_traffic conversion_rate
       average_basket initial_capital initial_stock
       purchase_price_ratio shipping_cost marketing_budget)
    (calculate_monthly_metrics monthly_traffic' conversion_rate'
       average_basket' initial_capital' initial_stock'
       purchase_price_ratio' shipping_cost' marketing_budget').
Proof.
  intros Hmt Hcr Hab Hppr Hsc Hmb.
  do 2 monthly_dict. cbn [same_result].
  assert (Horders : monthly_traffic * (conversion_rate / 100)
                    == monthly_traffic' * (conversion_rate' / 100))
    by now rewrite Hmt, Hcr.
  assert (Hrevenue : monthly_traffic * (conversion_rate / 100) * average_basket
                     == monthly_traffic' * (conversion_rate' / 100) * average_basket')
    by now rewrite Horders, Hab.
  set (orders := monthly_traffic * (conversion_rate / 100)) in *.
  set (orders' := monthly_traffic' * (conversion_rate' / 100)) in *.
  set (revenue := orders * average_basket) in *.
  set (revenue' := orders' * average_basket') in *.
  assert (Hgross :
            revenue - revenue * (purchase_price_ratio / 100)
            - orders * shipping_cost - (revenue * 0.029 + orders * 0.30)
            == revenue' - revenue' * (purchase_price_ratio' / 100)
               - orders' * shipping_cost' - (revenue' * 0.029 + orders' * 0.30))
    by now rewrite Horders, Hrevenue, Hppr, Hsc.
  assert (Hfixed : 0 + 32 + 200 + 1.25 + marketing_budget
                   == 0 + 32 + 200 + 1.25 + marketing_budget')
    by now rewrite Hmb.
  assert (Hrate := guarded_ratio_compat _ _ _ _ Hgross Hrevenue).
  repeat (apply same_metrics_insert; [|]);
    [ .. | apply same_metrics_empty ].
  - assumption.
  - assumption.
  - now rewrite Hrevenue, Hppr.
  - now rewrite Horders, Hsc.
  - now rewrite Horders, Hrevenue.
  - assumption.
  - assumption.
  - now rewrite Hgross, Hfixed.
  - assumption.
  - now apply guarded_ratio_compat.
  - now apply guarded_quotient_compat.
Qed.


(** C10: the result does not depend on [initial_capital] or
    [initial_stock].  Two input tuples that differ only there give equal
    results; more generally, whatever the two tuples hold in these two
    fields, if their six other fields hold the same numbers then so do the
    returned dicts under every key. *)
Theorem monthly_ignores_capital_and_stock
    (monthly_traffic conversion_rate average_basket initial_capital
     initial_stock purchase_price_ratio shipping_cost marketing_budget
     monthly_traffic' conversion_rate' average_basket' initial_capital'
     initial_stock' purchase_price_ratio' shipping_cost' marketing_budget' : Q) :
  calculate_monthly_metrics monthly_traffic conversion_rate average_basket
    initial_capital initial_stock purchase_price_ratio shipping_cost
    marketing_budget
  = calculate_monthly_metrics monthly_traffic conversion_rate average_basket
      initial_capital' initial_stock' purchase_price_ratio shipping_cost
      marketing_budget
  /\
  (monthly_traffic == monthly_traffic' -> conversion_rate == conversion_rate' ->
   average_basket == average_basket' ->
   purchase_price_ratio == purchase_price_ratio' ->
   shipping_cost == shipping_cost' -> marketing_budget == marketing_budget' ->
   same_result
     (calculate_monthly_metrics monthly_traffic conversion_rate
        average_basket initial_capital initial_stock
        purchase_price_ratio shipping_cost marketing_budget)
     (calculate_monthly_metrics monthly_traffic' conversion_rate'
        average_basket' initial_capital' initial_stock'
        purchase_price_ratio' shipping_cost' marketing_budget')).
Proof.
  split.
  - unfold calculate_monthly_metrics. reflexivity.
  - intros Hmt Hcr Hab Hppr Hsc Hmb.
    now apply monthly_same_numbers.
Qed.

(** ** Instances on concrete inputs *)

(** The dict written out as [scenario_monthly] holds, under every key, the
    number the monthly call returns on the scenario input. *)
Lemma scenario_returns_scenario_monthly :
  same_result scenario (Ok scenario_monthly).
Proof.
  unfold scenario, scenario_monthly. monthly_dict. cbn [same_result].
  repeat (apply same_metrics_insert; [vm_compute; reflexivity|]).
  apply same_metrics_empty.
Qed.


Lemma scenario_monthly_is_MonthlyMetrics : MonthlyMetrics scenario_monthly.
Proof.
  unfold MonthlyMetrics, monthly_fields.
  repeat (apply Forall_cons; split; [eexists; reflexivity|]).
  apply Forall_nil. exact I.
Defined.

Lemma annual_scaling_witness :
  MonthlyMetrics scenario_monthly /\
  exists annual,
    calculate_annual_projection scenario_monthly = Ok annual /\
    (forall k, k <> "taxes"%string -> k <> "net_profit"%string ->
       annual !! k = (fun v => v * 12) <$> scenario_monthly !! k) /\
    Forall (fun k => exists v, scenario_monthly !! k = Some v /\
                               annual !! k = Some (v * 12))
           monthly_fields.
Proof.
  split; [exact scenario_monthly_is_MonthlyMetrics|].
  exact (annual_scaling scenario_monthly scenario_monthly_is_MonthlyMetrics).
Defined.

Lemma annual_taxes_witness :
  scenario_monthly !! "net_margin"%string = Some 254.35 /\
  exists annual taxes net_profit,
    calculate_annual_projection scenario_monthly = Ok annual /\
    annual !! "net_margin"%string = Some (254.35 * 12) /\
    annual !! "taxes"%string = Some taxes /\
    annual !! "net_profit"%string = Some net_profit /\
    (254.35 * 12 <= 0 -> taxes == 0) /\
    (0 < 254.35 * 12 -> taxes == 0.20 * (254.35 * 12)) /\
    0 <= taxes /\
    net_profit == 254.35 * 12 - taxes.
Proof.
  assert (Hnm : scenario_monthly !! "net_margin"%string = Some 254.35)
    by reflexivity.
  split; [exact Hnm|].
  exact (annual_taxes scenario_monthly 254.35 Hnm).
Defined.



Lemma monthly_ignores_capital_and_stock_witness :
  calculate_monthly_metrics 1000 2.0 80.0 10000 3000 40.0 6.0 300.0
  = calculate_monthly_metrics 1000 2.0 80.0 0 500 40.0 6.0 300.0 /\
  (1000 == 1000 /\ 2.0 == 2 /\ 80.0 == 80 /\
   40.0 == 40 /\ 6.0 == 6 /\ 300.0 == 300) /\
  same_result
    (calculate_monthly_metrics 1000 2.0 80.0 10000 3000 40.0 6.0 300.0)
    (calculate_monthly_metrics 1000 2 80 0 500 40 6 300).
Proof.
  split; [|split].
  - apply (proj1 (monthly_ignores_capital_and_stock
                    1000 2.0 80.0 10000 3000 40.0 6.0 300.0
                    1000 2 80 0 500 40 6 300)).
  - repeat split; reflexivity.
  - apply (proj2 (monthly_ignores_capital_and_stock
                    1000 2.0 80.0 10000 3000 40.0 6.0 300.0
                    1000 2 80 0 500 40 6 300));
      reflexivity.
Defined.

(** ** The scenario in binary64 arithmetic *)

(** Run with IEEE 754 doubles, the scenario gives the integers and the
    dyadic values exactly, the other stated values within [1e-9], and a
    [break_even] within [0.005] of [1083.29] and not within [0.1] of
    [1083.42]. *)
Lemma binary64_scenario_values :
  Binary64.returned Binary64.scenario "orders" = Some 20%float /\
  Binary64.returned Binary64.scenario "revenue" = Some 1600%float /\
  Binary64.returned Binary64.scenario "purchase_cost" = Some 640%float /\
  Binary64.returned Binary64.scenario "shipping_total" = Some 120%float /\
  Binary64.returned Binary64.scenario "fixed_costs" = Some 533.25%float /\
  Binary64.returned Binary64.scenario "marketing_ratio" = Some 18.75%float /\
  Binary64.within 1e-9 Binary64.scenario "shopify_fees" 52.4 = true /\
  Binary64.within 1e-9 Binary64.scenario "gross_margin" 787.6 = true /\
  Binary64.within 1e-9 Binary64.scenario "net_margin" 254.35 = true /\
  Binary64.within 1e-9 Binary64.scenario "gross_margin_rate" 49.225 = true /\
  Binary64.within 0.005 Binary64.scenario "break_even" 1083.29 = true /\
  Binary64.within 0.1 Binary64.scenario "break_even" 1083.42 = false /\
  Binary64.within 1e-9 Binary64.scenario_annual "net_margin" 3052.2 = true /\
  Binary64.within 1e-9 Binary64.scenario_annual "taxes" 610.44 = true /\
  Binary64.within 1e-9 Binary64.scenario_annual "net_profit" 2441.76 = true.
Proof.
  repeat split; vm_compute; reflexivity.
Qed.

(** * The dashboard data *)

(** ** Runtime lemmas *)


Lemma getitem_None (d : gmap string Q) (k : string) :
  d !! k = None -> getitem d k = Raise (KeyError k).
Proof.
  intros H. unfold getitem. now rewrite H.
Qed.


(** ** What [main] hands over *)






(** ** The cash-flow table *)



(** ** The profit-and-loss table *)


(** ** The chart *)

Ltac name_monthly_terms mt cr ab ppr sc mb :=
  set (orders := mt * (cr / 100)) in *;
  set (revenue := orders * ab) in *;
  set (purchase_cost := revenue * (ppr / 100)) in *;
  set (shipping_total := orders * sc) in *;
  set (shopify_fees := revenue * 0.029 + orders * 0.30) in *;
  set (total_fixed_costs := 0 + 32 + 200 + 1.25 + mb) in *.



(** * More on the monthly metrics *)


(** ** Break-even *)


(** When the gross margin is not positive, no break-even exists and the
    function reports [break_even = 0]. *)
Theorem no_gross_margin_no_break_even
    (monthly_traffic conversion_rate average_basket initial_capital
     initial_stock purchase_price_ratio shipping_cost marketing_budget : Q) :
  let monthly := calculate_monthly_metrics monthly_traffic conversion_rate
                   average_basket initial_capital initial_stock
                   purchase_price_ratio shipping_cost marketing_budget in
  exists gross_margin gross_margin_rate : Q,
    returned monthly "gross_margin" = Some gross_margin /\
    returned monthly "gross_margin_rate" = Some gross_margin_rate /\
    (gross_margin <= 0 ->
     gross_margin_rate <= 0 /\ returned monthly "break_even" = Some 0).
Proof.
  cbv zeta. monthly_dict. cbn [returned].
  name_monthly_terms monthly_traffic conversion_rate average_basket
    purchase_price_ratio shipping_cost marketing_budget.
  set (gross_margin :=
         revenue - purchase_cost - shipping_total - shopify_fees) in *.
  clearbody gross_margin total_fixed_costs shopify_fees shipping_total
    purchase_cost revenue orders.
  do 2 eexists. do 2 (split; [reflexivity|]).
  intros Hgm.
  assert (Hrate : (if gt revenue 0 then gross_margin / revenue * 100 else 0)
                  <= 0).
  { destruct (gt revenue 0) eqn:Hrev; [|apply Qle_refl].
    apply gt_true in Hrev.
    assert (gross_margin / revenue <= 0); [|lra].
    apply Qle_shift_div_r; [assumption | lra]. }
  split; [exact Hrate|].
  apply gt_false in Hrate.
  assert (Hlookup :
            forall g : Q, gt g 0 = false ->
            ({[ "revenue"%string := revenue;
                "orders"%string := orders;
                "purchase_cost"%string := purchase_cost;
                "shipping_total"%string := shipping_total;
                "shopify_fees"%string := shopify_fees;
                "fixed_costs"%string := total_fixed_costs;
                "gross_margin"%string := gross_margin;
                "net_margin"%string := gross_margin - total_fixed_costs;
                "gross_margin_rate"%string := g;
                "marketing_ratio"%string :=
                  if gt revenue 0 then marketing_budget / revenue * 100 else 0;
                "break_even"%string :=
                  if gt g 0 then total_fixed_costs / (g / 100) else 0 ]}
             : gmap string Q) !! "break_even"%string = Some 0).
  { intros g Hg. rewrite Hg. reflexivity. }
  apply Hlookup, Hrate.
Qed.

(** ** The ratios *)

(** The guards test [revenue > 0], so whenever the revenue is zero or
    negative (no traffic, no conversion, a zero basket, or a negative input
    that the function does not reject) the three ratios are reported as [0],
    while the cost and margin fields keep their computed values. *)
Theorem nonpositive_revenue_zeroes_ratios
    (monthly_traffic conversion_rate average_basket initial_capital
     initial_stock purchase_price_ratio shipping_cost marketing_budget : Q) :
  let monthly := calculate_monthly_metrics monthly_traffic conversion_rate
                   average_basket initial_capital initial_stock
                   purchase_price_ratio shipping_cost marketing_budget in
  exists revenue : Q,
    returned monthly "revenue" = Some revenue /\
    (revenue <= 0 ->
     returned monthly "gross_margin_rate" = Some 0 /\
     returned monthly "marketing_ratio" = Some 0 /\
     returned monthly "break_even" = Some 0).
Proof.
  cbv zeta. monthly_dict. cbn [returned].
  eexists. split; [reflexivity|].
  intros Hrev. apply gt_false in Hrev. rewrite Hrev.
  repeat split; reflexivity.
Qed.




(** ** Scaling the traffic *)



(** * More on the annual projection *)


(** The projection has exactly the keys of its argument plus ['taxes'] and
    ['net_profit']. *)
Theorem annual_projection_keys (monthly_metrics : gmap string Q) (nm : Q) :
  monthly_metrics !! "net_margin"%string = Some nm ->
  exists annual,
    calculate_annual_projection monthly_metrics = Ok annual /\
    dom annual
    = {[ "net_profit"%string ]} ∪ ({[ "taxes"%string ]} ∪ dom monthly_metrics).
Proof.
  intros Hnm. eexists.
  split; [apply (calculate_annual_projection_Ok _ _ Hnm)|].
  now rewrite !dom_insert_L, dom_fmap_L.
Qed.

(** Entries ['taxes'] and ['net_profit'] already present in the argument
    are never read: whatever they hold, the projection is the same. *)
Theorem annual_projection_overwrites (monthly_metrics : gmap string Q)
    (nm t p t' p' : Q) :
  monthly_metrics !! "net_margin"%string = Some nm ->
  calculate_annual_projection
    (<["taxes"%string := t]> (<["net_profit"%string := p]> monthly_metrics))
  = calculate_annual_projection
      (<["taxes"%string := t']> (<["net_profit"%string := p']> monthly_metrics)).
Proof.
  intros Hnm.
  assert (Hin : forall x y : Q,
            (<["taxes"%string := x]>
               (<["net_profit"%string := y]> monthly_metrics))
            !! "net_margin"%string = Some nm).
  { intros x y. now rewrite !lookup_insert_ne by discriminate. }
  rewrite (calculate_annual_projection_Ok _ _ (Hin t p)).
  rewrite (calculate_annual_projection_Ok _ _ (Hin t' p')).
  f_equal. apply map_eq. intros k.
  destruct (decide (k = "net_profit"%string)) as [->|Hp];
    [now rewrite !lookup_insert_eq|].
  rewrite !(lookup_insert_ne _ "net_profit"%string k) by congruence.
  destruct (decide (k = "taxes"%string)) as [->|Ht];
    [now rewrite !lookup_insert_eq|].
  rewrite !(lookup_insert_ne _ "taxes"%string k) by congruence.
  rewrite !lookup_fmap.
  rewrite !(lookup_insert_ne _ "taxes"%string k) by congruence.
  rewrite !(lookup_insert_ne _ "net_profit"%string k) by congruence.
  reflexivity.
Qed.



(** * Instances of the additional properties on concrete inputs *)



Lemma no_gross_margin_no_break_even_witness :
  let monthly :=
    calculate_monthly_metrics 1000 2.0 80.0 10000 3000 100.0 6.0 300.0 in
  exists gross_margin gross_margin_rate : Q,
    returned monthly "gross_margin" = Some gross_margin /\
    returned monthly "gross_margin_rate" = Some gross_margin_rate /\
    gross_margin <= 0 /\
    gross_margin_rate <= 0 /\ returned monthly "break_even" = Some 0.
Proof.
  cbv zeta.
  pose proof (no_gross_margin_no_break_even
                1000 2.0 80.0 10000 3000 100.0 6.0 300.0) as H.
  cbv zeta in H.
  destruct H as (gm & rate & Hgm & Hrate & H).
  assert (Hneg : gm <= 0).
  { vm_compute in Hgm. injection Hgm as <-. discriminate. }
  exists gm, rate.
  repeat split; try assumption; apply (H Hneg).
Defined.

Lemma nonpositive_revenue_zeroes_ratios_witness :
  let monthly :=
    calculate_monthly_metrics 1000 2.0 0 10000 3000 40.0 6.0 300.0 in
  exists revenue : Q,
    returned monthly "revenue" = Some revenue /\
    revenue <= 0 /\
    returned monthly "gross_margin_rate" = Some 0 /\
    returned monthly "marketing_ratio" = Some 0 /\
    returned monthly "break_even" = Some 0.
Proof.
  cbv zeta.
  pose proof (nonpositive_revenue_zeroes_ratios
                1000 2.0 0 10000 3000 40.0 6.0 300.0) as H.
  cbv zeta in H.
  destruct H as (rev & Hrev & H).
  assert (Hle : rev <= 0).
  { vm_compute in Hrev. injection Hrev as <-. discriminate. }
  exists rev.
  repeat split; try assumption; apply (H Hle).
Defined.





Lemma annual_projection_keys_witness :
  scenario_monthly !! "net_margin"%string = Some 254.35 /\
  exists annual,
    calculate_annual_projection scenario_monthly = Ok annual /\
    dom annual
    = {[ "net_profit"%string ]} ∪ ({[ "taxes"%string ]} ∪ dom scenario_monthly).
Proof.
  assert (Hnm : scenario_monthly !! "net_margin"%string = Some 254.35)
    by reflexivity.
  split; [exact Hnm|].
  exact (annual_projection_keys scenario_monthly 254.35 Hnm).
Defined.

Lemma annual_projection_overwrites_witness :
  scenario_monthly !! "net_margin"%string = Some 254.35 /\
  calculate_annual_projection
    (<["taxes"%string := 1]> (<["net_profit"%string := 2]> scenario_monthly))
  = calculate_annual_projection
      (<["taxes"%string := 3]> (<["net_profit"%string := 4]> scenario_monthly)).
Proof.
  assert (Hnm : scenario_monthly !! "net_margin"%string = Some 254.35)
    by reflexivity.
  split; [exact Hnm|].
  exact (annual_projection_overwrites scenario_monthly 254.35 1 2 3 4 Hnm).
Defined.

